(** * verify_models.py: the checkpoint verification script

    A shallow embedding of [src/verify_models.py].  The script looks at a
    fixed catalogue of five weight files; for each it checks that the file
    exists, measures it, loads it with [torch.load], tells a state
    dictionary from any other object, compares the size with the range
    written in the code for the label, prints what it found and returns a
    boolean.  [main] collects the booleans and prints a summary.

    The file system and [torch.load] are the script's environment: a
    [World] gives, for a path, the entry found there (or none), its size
    in bytes and what loading it produces.  Python's effects are explicit:
    a computation yields the events it performed (lines printed, calls
    made to the environment) and either a value or a raised exception.

    [print] is modelled twice.  [print] writes to a standard output that
    can encode every text, as a UTF-8 one does, and so never raises;
    [verify_model_file] and [main] are the script on such an output.
    [print_to] writes to a [Stdout] given by the environment, which may
    refuse a text ([UnicodeEncodeError]); [verify_model_file_to] is the
    same function on any standard output. *)

From Stdlib Require Import String Ascii List ZArith NArith QArith Bool Lia.
From Stdlib Require Import DecimalString Permutation.
Import ListNotations.

Local Open Scope string_scope.
Local Open Scope Z_scope.

(** ** Python values *)

Local Set Warnings "-register-all".

(** What [torch.load] can hand back.  A [dict] (an [OrderedDict] is one)
    keeps its items in insertion order, so it is an association list; its
    keys are the layer names.  Everything else is some other object. *)
Inductive PyObj : Type :=
| PyDict (items : list (string * PyObj))
| PyTensor
| PyList (elems : list PyObj)
| PyOther (type_name : string).

(** [isinstance(checkpoint, dict)] *)
Definition isinstance_dict (o : PyObj) : bool :=
  match o with
  | PyDict _ => true
  | _ => false
  end.

(** An exception object whose class derives from [Exception], as are all
    the errors [os.stat] and [torch.load] raise for a path or for the
    bytes of a file ([FileNotFoundError], [IsADirectoryError], [EOFError],
    [pickle.UnpicklingError], [RuntimeError], ...).  [exn_str] is what
    [str(e)] returns; it may be empty. *)
Record PyExn : Type := mkExn {
  exn_class : string;
  exn_str : string
}.

(** ** The environment *)

(** An entry of the file system: its size in bytes ([st_size]) and what
    [torch.load] does with it. *)
Record File : Type := mkFile {
  st_size : N;
  content : PyExn + PyObj
}.

Record World : Type := mkWorld {
  fs : string -> option File
}.

(** ** Effects *)

Inductive Event : Type :=
| Print (line : string)
| Call_exists (path : string)
| Call_getsize (path : string)
| Call_torch_load (path : string).

Inductive Result (A : Type) : Type :=
| Returned (a : A)
| Raised (e : PyExn).

Arguments Returned {A} a.
Arguments Raised {A} e.

(** A computation: the events it performed, in order, and how it ended. *)
Definition Py (A : Type) : Type := (list Event * Result A)%type.

Definition ret {A} (a : A) : Py A := ([], Returned a).

Definition bind {A B} (m : Py A) (k : A -> Py B) : Py B :=
  match m with
  | (t, Returned a) => let (t', r) := k a in ((t ++ t')%list, r)
  | (t, Raised e) => (t, Raised e)
  end.

(** [try: body  except Exception as e: handler] *)
Definition try_except {A} (body : Py A) (handler : PyExn -> Py A) : Py A :=
  match body with
  | (t, Returned a) => (t, Returned a)
  | (t, Raised e) => let (t', r) := handler e in ((t ++ t')%list, r)
  end.

Notation "x <- m ;; k" := (bind m (fun x => k))
  (at level 61, m at next level, right associativity).
Notation "m ;; k" := (bind m (fun _ => k))
  (at level 61, right associativity).

(** [print(line)] on a standard output that can encode every text (a
    UTF-8 one): the line is written and nothing is raised.  [print_to]
    below is [print] on any standard output. *)
Definition print (line : string) : Py unit := ([Print line], Returned tt).

(** A standard output, by what writing a text to it does: [None] when
    its encoding can encode the text, and otherwise the exception raised
    (a [UnicodeEncodeError]), in which case nothing is written. *)
Record Stdout : Type := mkStdout {
  write : string -> option PyExn
}.

(** [print(line)] on the standard output [out]. *)
Definition print_to (out : Stdout) (line : string) : Py unit :=
  match write out line with
  | None => ([Print line], Returned tt)
  | Some e => ([], Raised e)
  end.

(** [os.path.exists(path)]: never raises. *)
Definition os_path_exists (w : World) (path : string) : Py bool :=
  ([Call_exists path],
   Returned (match fs w path with Some _ => true | None => false end)).

(** [os.path.getsize(path)]: [os.stat(path).st_size], and
    [FileNotFoundError] when there is nothing at [path]. *)
Definition os_path_getsize (w : World) (path : string) : Py N :=
  ([Call_getsize path],
   match fs w path with
   | Some f => Returned (st_size f)
   | None =>
       Raised (mkExn "FileNotFoundError"
                 ("[Errno 2] No such file or directory: '" ++ path ++ "'"))
   end).

(** [torch.load(path, map_location='cpu')] *)
Definition torch_load (w : World) (path : string) : Py PyObj :=
  ([Call_torch_load path],
   match fs w path with
   | Some f =>
       match content f with
       | inr obj => Returned obj
       | inl e => Raised e
       end
   | None =>
       Raised (mkExn "FileNotFoundError"
                 ("[Errno 2] No such file or directory: '" ++ path ++ "'"))
   end).

Definition stdout {A} (m : Py A) : list string :=
  flat_map (fun ev => match ev with Print s => [s] | _ => [] end) (fst m).

Definition outcome {A} (m : Py A) : Result A := snd m.

(** ** Formatting *)

Definition newline : string := String (ascii_of_nat 10) EmptyString.

(** [s * n] on strings *)
Fixpoint str_mul (s : string) (n : nat) : string :=
  match n with
  | O => EmptyString
  | S n' => s ++ str_mul s n'
  end.

(** [str(n)] for an [int] *)
Definition str_int (z : Z) : string := NilZero.string_of_int (Z.to_int z).

Definition two_digits (z : Z) : string :=
  if z <? 10 then "0" ++ str_int z else str_int z.

(** The number of hundredths nearest to [q], ties to the even one. *)
Definition round_hundredths (q : Q) : Z :=
  let n := Qnum q * 100 in
  let d := Zpos (Qden q) in
  let fl := n / d in
  match 2 * (n mod d) ?= d with
  | Lt => fl
  | Gt => fl + 1
  | Eq => if Z.even fl then fl else fl + 1
  end.

(** [f"{x:.2f}"] for [x >= 0]: the value rounded to two decimals.  The
    script formats the float [st_size / (1024 * 1024)]; that quotient is
    exact in a float for every size below [2^53] bytes, and there the
    digits printed are those of the rational. *)
Definition format_2f (q : Q) : string :=
  let h := round_hundredths q in
  str_int (h / 100) ++ "." ++ two_digits (h mod 100).

(** [f"{s:15s}"]: [s] padded with spaces on the right to 15 characters
    (characters are bytes here, which is the same for the ASCII labels of
    the catalogue). *)
Definition format_15s (s : string) : string :=
  s ++ str_mul " " (15 - String.length s).

Definition rule : string := str_mul "=" 60.

(** ** Comparisons on sizes *)

(** [x < y] on sizes in megabytes.  The script compares the float
    [st_size / (1024 * 1024)] with integer constants; float division is
    correctly rounded, hence monotone and exact on integers, so each
    comparison has the truth value of the one on the rational. *)
Definition Qltb (x y : Q) : bool := negb (Qle_bool y x).

(** ** verify_model_file *)

(** [for x in xs: body(x)] *)
Fixpoint for_each {A} (xs : list A) (body : A -> Py unit) : Py unit :=
  match xs with
  | [] => ret tt
  | x :: xs' => body x ;; for_each xs' body
  end.

(** Lines 43-54: the chain of size checks, as the line it prints. *)
Definition size_line (model_name : string) (file_size_mb : Q) : string :=
  if (model_name =? "VGG16")%string && Qltb 400 file_size_mb then
    "✅ File size appropriate for VGG16"
  else if (model_name =? "ResNet18")%string
          && (Qltb 40 file_size_mb && Qltb file_size_mb 60) then
    "✅ File size appropriate for ResNet18"
  else if (model_name =? "MobileNetV2")%string
          && (Qltb 10 file_size_mb && Qltb file_size_mb 20) then
    "✅ File size appropriate for MobileNetV2"
  else if (model_name =? "AlexNet")%string
          && (Qltb 200 file_size_mb && Qltb file_size_mb 250) then
    "✅ File size appropriate for AlexNet"
  else if (model_name =? "ViT")%string
          && (Qltb 300 file_size_mb && Qltb file_size_mb 400) then
    "✅ File size appropriate for ViT"
  else
    "⚠️  File size unusual for " ++ model_name.

(** [os.path.getsize(filepath) / (1024 * 1024)] *)
Definition megabytes (size : N) : Q :=
  (inject_Z (Z.of_N size) / inject_Z (1024 * 1024))%Q.

Definition verify_model_file (w : World) (filepath model_name : string)
  : Py bool :=
  print (newline ++ rule) ;;
  print ("Verifying: " ++ model_name) ;;
  print rule ;;
  present <- os_path_exists w filepath ;;
  if negb present then
    print ("❌ File not found: " ++ filepath) ;;
    ret false
  else
    size <- os_path_getsize w filepath ;;
    let file_size_mb := megabytes size in
    print ("📁 File: " ++ filepath) ;;
    print ("💾 Size: " ++ format_2f file_size_mb ++ " MB") ;;
    try_except
      (checkpoint <- torch_load w filepath ;;
       print "✅ File is loadable" ;;
       match checkpoint with
       | PyDict items =>
           let num_layers := Z.of_nat (List.length items) in
           print ("📊 Number of layers: " ++ str_int num_layers) ;;
           let layer_names := firstn 5 (map fst items) in
           print "🔍 First 5 layers:" ;;
           for_each layer_names (fun name => print ("   - " ++ name)) ;;
           print (size_line model_name file_size_mb) ;;
           ret true
       | _ =>
           print "⚠️  Checkpoint is not a state dictionary" ;;
           ret false
       end)
      (fun e =>
         print ("❌ Error loading file: " ++ exn_str e) ;;
         ret false).

(** [verify_model_file] on any standard output: the same statements,
    each [print] writing to [out].  A print outside the [try] that [out]
    refuses raises out of the function; one inside the [try] is caught
    by [except Exception], whose handler prints in its turn. *)
Definition verify_model_file_to (out : Stdout) (w : World)
    (filepath model_name : string) : Py bool :=
  print_to out (newline ++ rule) ;;
  print_to out ("Verifying: " ++ model_name) ;;
  print_to out rule ;;
  present <- os_path_exists w filepath ;;
  if negb present then
    print_to out ("❌ File not found: " ++ filepath) ;;
    ret false
  else
    size <- os_path_getsize w filepath ;;
    let file_size_mb := megabytes size in
    print_to out ("📁 File: " ++ filepath) ;;
    print_to out ("💾 Size: " ++ format_2f file_size_mb ++ " MB") ;;
    try_except
      (checkpoint <- torch_load w filepath ;;
       print_to out "✅ File is loadable" ;;
       match checkpoint with
       | PyDict items =>
           let num_layers := Z.of_nat (List.length items) in
           print_to out ("📊 Number of layers: " ++ str_int num_layers) ;;
           let layer_names := firstn 5 (map fst items) in
           print_to out "🔍 First 5 layers:" ;;
           for_each layer_names (fun name => print_to out ("   - " ++ name)) ;;
           print_to out (size_line model_name file_size_mb) ;;
           ret true
       | _ =>
           print_to out "⚠️  Checkpoint is not a state dictionary" ;;
           ret false
       end)
      (fun e =>
         print_to out ("❌ Error loading file: " ++ exn_str e) ;;
         ret false).

(** ** main *)

(** [models_to_check], in the order the dict literal lists it *)
Definition models_to_check : list (string * string) :=
  [ ("VGG16", "vgg16/vgg16_weights.pth");
    ("ResNet18", "resnet18/resnet18_weights.pth");
    ("MobileNetV2", "mobilenet/mobilenet_weights.pth");
    ("AlexNet", "alexnet/alexnet_weights.pth");
    ("ViT", "vit/vit_weights.pth") ].

(** [d[key] = value] on a dict kept in insertion order: a key already
    there keeps its place, a new one goes last. *)
Fixpoint dict_set {V} (d : list (string * V)) (key : string) (value : V)
  : list (string * V) :=
  match d with
  | [] => [(key, value)]
  | (k, v) :: d' =>
      if (k =? key)%string then (k, value) :: d'
      else (k, v) :: dict_set d' key value
  end.

(** Lines 81-82: the loop over the catalogue, filling [results]. *)
Fixpoint check_models (w : World) (todo : list (string * string))
    (results : list (string * bool)) : Py (list (string * bool)) :=
  match todo with
  | [] => ret results
  | (model_name, filepath) :: todo' =>
      is_valid <- verify_model_file w filepath model_name ;;
      check_models w todo' (dict_set results model_name is_valid)
  end.

(** [sum(xs)] on booleans: [True] counts 1 and [False] 0, added from
    the left to the start value 0. *)
Definition py_sum (xs : list bool) : Z :=
  fold_left (fun acc b => acc + Z.b2z b) xs 0.

(** Line 89 *)
Definition valid_count (results : list (string * bool)) : Z :=
  py_sum (map snd results).

(** Line 90 *)
Definition total_count (results : list (string * bool)) : Z :=
  Z.of_nat (List.length results).

(** The three branches of lines 98-106, under the names the
    specification gives to the three outcomes. *)
Inductive Readiness : Type := ALL_READY | PARTIAL | NONE_READY.

(** Which branch of [if valid_count == total_count: ... elif
    valid_count > 0: ... else: ...] is taken. *)
Definition readiness (valid total : Z) : Readiness :=
  if valid =? total then ALL_READY
  else if 0 <? valid then PARTIAL
  else NONE_READY.

(** What each branch prints. *)
Definition announce (r : Readiness) (valid total : Z) : Py unit :=
  match r with
  | ALL_READY =>
      print (newline ++ "🎉 All models are ready to use!") ;;
      print "You can now use load_trained_models.ipynb for inference"
  | PARTIAL =>
      print (newline ++ "⚠️  " ++ str_int (total - valid)
             ++ " model(s) missing or invalid") ;;
      print "Train the missing models or check file paths"
  | NONE_READY =>
      print (newline ++ "❌ No valid models found") ;;
      print "Please train your models first"
  end.

(** Lines 85-108, for the [results] the loop has filled. *)
Definition summary (results : list (string * bool)) : Py unit :=
  print (newline ++ rule) ;;
  print "📋 VERIFICATION SUMMARY" ;;
  print rule ;;
  let valid := valid_count results in
  let total := total_count results in
  for_each results (fun entry =>
    let status :=
      if snd entry then "✅ Valid" else "❌ Missing/Invalid" in
    print (format_15s (fst entry) ++ " : " ++ status)) ;;
  print (newline ++ str_int valid ++ "/" ++ str_int total
         ++ " models verified successfully") ;;
  announce (readiness valid total) valid total ;;
  print (newline ++ rule ++ newline).

(** The classification [summary] announces. *)
Definition classification (results : list (string * bool)) : Readiness :=
  readiness (valid_count results) (total_count results).

Definition main (w : World) : Py unit :=
  print (newline ++ "🔍 SiteLenz Model Verification Tool" ++ newline) ;;
  results <- check_models w models_to_check [] ;;
  summary results.

(** ** Names for what the script prints and decides *)

(** The three lines that open every run of [verify_model_file]. *)
Definition banner (model_name : string) : list Event :=
  [ Print (newline ++ rule); Print ("Verifying: " ++ model_name); Print rule ].

Definition unusual_line (model_name : string) : string :=
  "⚠️  File size unusual for " ++ model_name.

Definition appropriate_line (model_name : string) : string :=
  "✅ File size appropriate for " ++ model_name.

(** The labels the chain of lines 43-54 has a check for. *)
Definition has_size_range (model_name : string) : bool :=
  (model_name =? "VGG16")%string || (model_name =? "ResNet18")%string
  || (model_name =? "MobileNetV2")%string || (model_name =? "AlexNet")%string
  || (model_name =? "ViT")%string.

(** The label and size pairs that pass a check of the chain, each with
    the comparisons its branch makes. *)
Definition within_expected_range (model_name : string) (mb : Q) : Prop :=
  (model_name = "VGG16" /\ 400 < mb)%Q
  \/ (model_name = "ResNet18" /\ 40 < mb /\ mb < 60)%Q
  \/ (model_name = "MobileNetV2" /\ 10 < mb /\ mb < 20)%Q
  \/ (model_name = "AlexNet" /\ 200 < mb /\ mb < 250)%Q
  \/ (model_name = "ViT" /\ 300 < mb /\ mb < 400)%Q.

(** What [verify_model_file] returns, read off the environment. *)
Definition verdict (w : World) (filepath : string) : bool :=
  match fs w filepath with
  | Some f =>
      match content f with
      | inr obj => isinstance_dict obj
      | inl _ => false
      end
  | None => false
  end.

(** The calls a run made to the environment, in order, without the
    lines it printed. *)
Definition env_calls (t : list Event) : list Event :=
  filter (fun ev => match ev with Print _ => false | _ => true end) t.

(** The entry [main] stores for one catalogue entry: the label and what
    [verify_model_file] returned ([verify_model_file] always returns,
    so the second case of the match is never taken). *)
Definition result_entry (w : World) (entry : string * string)
  : string * bool :=
  (fst entry,
   match outcome (verify_model_file w (snd entry) (fst entry)) with
   | Returned valid => valid
   | Raised _ => false
   end).

(** The status line of lines 92-94 for one entry of [results]. *)
Definition status_line (entry : string * bool) : string :=
  format_15s (fst entry) ++ " : "
  ++ (if snd entry then "✅ Valid" else "❌ Missing/Invalid").

(** ** A sample environment *)

(** Two of the five files are in place: a ResNet18 state dictionary of
    47 MB and a MobileNetV2 one of 5 MB; the AlexNet file is truncated,
    the ViT file holds a bare tensor, and there is no VGG16 file.  A
    sixth file, of 30 MB, belongs to a label the script has no size check
    for. *)
Definition sample_state_dict : PyObj :=
  PyDict [("conv1.weight", PyTensor); ("bn1.weight", PyTensor);
          ("bn1.bias", PyTensor)].

Definition sample_world : World := mkWorld (fun path =>
  if (path =? "resnet18/resnet18_weights.pth")%string then
    Some (mkFile 49283072 (inr sample_state_dict))
  else if (path =? "mobilenet/mobilenet_weights.pth")%string then
    Some (mkFile 5242880 (inr sample_state_dict))
  else if (path =? "alexnet/alexnet_weights.pth")%string then
    Some (mkFile 131072 (inl (mkExn "EOFError" "Ran out of input")))
  else if (path =? "vit/vit_weights.pth")%string then
    Some (mkFile 346030080 (inr PyTensor))
  else if (path =? "densenet/densenet_weights.pth")%string then
    Some (mkFile 31457280 (inr sample_state_dict))
  else None).

(** A world whose VGG16 file is a state dictionary of 10 TiB. *)
Definition huge_vgg16_world : World := mkWorld (fun path =>
  if (path =? "vgg16/vgg16_weights.pth")%string then
    Some (mkFile 10995116277760 (inr sample_state_dict))
  else None).

(** A checkpoint with seven entries, and worlds that hold it: one under
    the ResNet18 path with 41,000,000 bytes (41 MB in decimal, less than
    40 binary megabytes), one with an empty dict under the ViT path. *)
Definition seven_layer_dict : PyObj :=
  PyDict [("features.0.weight", PyTensor); ("features.0.bias", PyTensor);
          ("features.3.weight", PyTensor); ("features.3.bias", PyTensor);
          ("classifier.1.weight", PyTensor); ("classifier.1.bias", PyTensor);
          ("classifier.4.weight", PyTensor)].

Definition decimal_41mb_world : World := mkWorld (fun path =>
  if (path =? "resnet18/resnet18_weights.pth")%string then
    Some (mkFile 41000000 (inr seven_layer_dict))
  else if (path =? "vit/vit_weights.pth")%string then
    Some (mkFile 335544320 (inr (PyDict [])))
  else None).

(** Two standard outputs.  A UTF-8 one encodes every text.  One with
    the strict [ascii] codec refuses a text that has a byte above 127,
    with the exception [err] gives for it. *)
Definition utf8_stdout : Stdout := mkStdout (fun _ => None).

Fixpoint is_ascii (s : string) : bool :=
  match s with
  | EmptyString => true
  | String c s' => (nat_of_ascii c <? 128)%nat && is_ascii s'
  end.

Definition ascii_stdout (err : string -> PyExn) : Stdout :=
  mkStdout (fun line => if is_ascii line then None else Some (err line)).

(** What the [ascii] codec raises for a text whose first character is
    U+274C, the cross mark, followed by ASCII. *)
Definition cross_mark_error : PyExn :=
  mkExn "UnicodeEncodeError"
    "'ascii' codec can't encode character '\u274c' in position 0: ordinal not in range(128)".

(** A world where every path holds a state dictionary of 47 MB. *)
Definition all_valid_world : World :=
  mkWorld (fun _ => Some (mkFile 49283072 (inr sample_state_dict))).

(** * Properties *)

(** ** Runs of verify_model_file, case by case *)

Lemma bind_returned {A B} (t : list Event) (a : A) (k : A -> Py B) :
  bind (t, Returned a) k = ((t ++ fst (k a))%list, snd (k a)).
Proof. unfold bind. destruct (k a); reflexivity. Qed.

Lemma for_each_print {A} (xs : list A) (g : A -> string) :
  for_each xs (fun x => print (g x)) = (map (fun x => Print (g x)) xs, Returned tt).
Proof.
  induction xs as [|x xs IH]; [reflexivity|].
  cbn [for_each]. rewrite IH. reflexivity.
Qed.

Section Runs.

Variable w : World.
Variables filepath model_name : string.

Lemma verify_model_file_missing :
  fs w filepath = None ->
  verify_model_file w filepath model_name
  = ((banner model_name
      ++ [ Call_exists filepath; Print ("❌ File not found: " ++ filepath) ])%list,
     Returned false).
Proof.
  intros Hfs. unfold verify_model_file, os_path_exists. rewrite Hfs.
  reflexivity.
Qed.

Lemma verify_model_file_load_error (f : File) (e : PyExn) :
  fs w filepath = Some f -> content f = inl e ->
  verify_model_file w filepath model_name
  = ((banner model_name
      ++ [ Call_exists filepath; Call_getsize filepath;
           Print ("📁 File: " ++ filepath);
           Print ("💾 Size: " ++ format_2f (megabytes (st_size f)) ++ " MB");
           Call_torch_load filepath;
           Print ("❌ Error loading file: " ++ exn_str e) ])%list,
     Returned false).
Proof.
  intros Hfs Hc.
  unfold verify_model_file, os_path_exists, os_path_getsize, torch_load.
  rewrite Hfs, Hc. reflexivity.
Qed.

Lemma verify_model_file_not_dict (f : File) (obj : PyObj) :
  fs w filepath = Some f -> content f = inr obj ->
  isinstance_dict obj = false ->
  verify_model_file w filepath model_name
  = ((banner model_name
      ++ [ Call_exists filepath; Call_getsize filepath;
           Print ("📁 File: " ++ filepath);
           Print ("💾 Size: " ++ format_2f (megabytes (st_size f)) ++ " MB");
           Call_torch_load filepath;
           Print "✅ File is loadable";
           Print "⚠️  Checkpoint is not a state dictionary" ])%list,
     Returned false).
Proof.
  intros Hfs Hc Hd.
  unfold verify_model_file, os_path_exists, os_path_getsize, torch_load.
  rewrite Hfs, Hc.
  destruct obj; [discriminate Hd | reflexivity ..].
Qed.

Lemma verify_model_file_dict (f : File) (items : list (string * PyObj)) :
  fs w filepath = Some f -> content f = inr (PyDict items) ->
  verify_model_file w filepath model_name
  = ((banner model_name
      ++ [ Call_exists filepath; Call_getsize filepath;
           Print ("📁 File: " ++ filepath);
           Print ("💾 Size: " ++ format_2f (megabytes (st_size f)) ++ " MB");
           Call_torch_load filepath;
           Print "✅ File is loadable";
           Print ("📊 Number of layers: "
                  ++ str_int (Z.of_nat (List.length items)));
           Print "🔍 First 5 layers:" ]
      ++ map (fun name => Print ("   - " ++ name)) (firstn 5 (map fst items))
      ++ [ Print (size_line model_name (megabytes (st_size f))) ])%list,
     Returned true).
Proof.
  intros Hfs Hc.
  unfold verify_model_file, os_path_exists, os_path_getsize, torch_load.
  rewrite Hfs, Hc.
  cbv beta iota delta [bind try_except negb].
  rewrite for_each_print.
  reflexivity.
Qed.

End Runs.

(** ** The size checks *)

Lemma Qltb_lt (x y : Q) : Qltb x y = true <-> (x < y)%Q.
Proof.
  unfold Qltb. rewrite negb_true_iff. split.
  - intros H. apply Qnot_le_lt. intros Hle.
    apply Qle_bool_iff in Hle. congruence.
  - intros H. destruct (Qle_bool y x) eqn:E; [|reflexivity].
    apply Qle_bool_iff in E. exfalso. exact (Qlt_not_le _ _ H E).
Qed.

Lemma Qltb_nlt (x y : Q) : Qltb x y = false <-> ~ (x < y)%Q.
Proof.
  rewrite <- Qltb_lt. destruct (Qltb x y); split; intros H;
    [discriminate | exfalso; apply H; reflexivity | discriminate | reflexivity].
Qed.

Lemma unusual_not_appropriate (a b : string) :
  unusual_line a <> appropriate_line b.
Proof. unfold unusual_line, appropriate_line. cbn. discriminate. Qed.

Ltac case_labels :=
  repeat match goal with
  | |- context [String.eqb ?a ?b] =>
      destruct (String.eqb_spec a b); try discriminate; subst
  end.

Ltac case_sizes :=
  repeat match goal with
  | |- context [Qltb ?a ?b] =>
      let E := fresh "E" in
      destruct (Qltb a b) eqn:E;
      [apply Qltb_lt in E | apply Qltb_nlt in E]
  end.

(** The chain prints the "appropriate" line for exactly these sizes. *)
Lemma size_line_appropriate (model_name : string) (mb : Q) :
  size_line model_name mb = appropriate_line model_name
  <-> within_expected_range model_name mb.
Proof.
  unfold within_expected_range, size_line. case_labels; cbn [andb]; case_sizes; cbn [andb].
  all: try match goal with
       | |- context [ "⚠️  File size unusual for " ++ ?x ] =>
           change ("⚠️  File size unusual for " ++ x) with (unusual_line x)
       end.
  all: split; [intros H | intros H].
  all: try (exfalso; exact (unusual_not_appropriate _ _ H)).
  all: try reflexivity.
  all: try tauto.
  all: try (intuition congruence).
Qed.

Lemma size_line_cases (model_name : string) (mb : Q) :
  size_line model_name mb = appropriate_line model_name
  \/ size_line model_name mb = unusual_line model_name.
Proof.
  unfold size_line.
  repeat match goal with
  | |- context [if ?c then _ else _] => destruct c eqn:?
  end; try (right; reflexivity).
  all: repeat match goal with
       | H : (_ && _)%bool = true |- _ => apply andb_true_iff in H; destruct H
       | H : (_ =? _)%string = true |- _ => apply String.eqb_eq in H; subst
       end; left; reflexivity.
Qed.

Lemma size_line_no_range (model_name : string) (mb : Q) :
  has_size_range model_name = false ->
  size_line model_name mb = unusual_line model_name.
Proof.
  unfold has_size_range, size_line. intros H.
  repeat (apply orb_false_iff in H; destruct H as [H ?]).
  repeat match goal with E : (_ =? _)%string = false |- _ => rewrite E; clear E end.
  reflexivity.
Qed.

Lemma size_line_out_of_range (model_name : string) (mb : Q) :
  ~ within_expected_range model_name mb ->
  size_line model_name mb = unusual_line model_name.
Proof.
  intros H. destruct (size_line_cases model_name mb) as [E|E]; [|exact E].
  exfalso. apply H. apply size_line_appropriate. exact E.
Qed.

(** A size in megabytes against an integer bound, in bytes. *)
Lemma megabytes_gt (k : Z) (size : N) :
  (inject_Z k < megabytes size)%Q <-> k * 1048576 < Z.of_N size.
Proof.
  unfold megabytes, Qlt, Qdiv, Qmult, Qinv, inject_Z. cbn. lia.
Qed.

(** ** The verdict of verify_model_file *)

Lemma verify_model_file_outcome (w : World) (filepath model_name : string) :
  outcome (verify_model_file w filepath model_name)
  = Returned (verdict w filepath).
Proof.
  unfold verdict.
  destruct (fs w filepath) as [f|] eqn:Hfs.
  - destruct (content f) as [e|obj] eqn:Hc.
    + rewrite (verify_model_file_load_error _ _ _ _ _ Hfs Hc). reflexivity.
    + destruct (isinstance_dict obj) eqn:Hd.
      * destruct obj; try discriminate Hd.
        rewrite (verify_model_file_dict _ _ _ _ _ Hfs Hc). reflexivity.
      * rewrite (verify_model_file_not_dict _ _ _ _ _ Hfs Hc Hd). reflexivity.
  - rewrite (verify_model_file_missing _ _ _ Hfs). reflexivity.
Qed.

(** The loop of [main] ends with one entry per catalogue entry. *)
Lemma check_models_outcome (w : World) (todo : list (string * string))
    (results : list (string * bool)) :
  outcome (check_models w todo results)
  = Returned (fold_left
                (fun acc entry => dict_set acc (fst entry) (verdict w (snd entry)))
                todo results).
Proof.
  revert results. induction todo as [|[model_name filepath] todo IH];
    intros results; [reflexivity|].
  cbn [check_models fold_left fst snd].
  pose proof (verify_model_file_outcome w filepath model_name) as Hv.
  destruct (verify_model_file w filepath model_name) as [t r].
  unfold outcome in Hv; cbn [snd] in Hv. subst r.
  rewrite bind_returned. unfold outcome. cbn [snd]. apply IH.
Qed.

Lemma summary_outcome (results : list (string * bool)) :
  outcome (summary results) = Returned tt.
Proof.
  unfold summary.
  cbv beta iota zeta delta [bind].
  rewrite for_each_print.
  destruct (readiness (valid_count results) (total_count results)); reflexivity.
Qed.

Lemma main_outcome (w : World) : outcome (main w) = Returned tt.
Proof.
  unfold main.
  pose proof (check_models_outcome w models_to_check []) as Hc.
  destruct (check_models w models_to_check []) as [t r].
  unfold outcome in Hc; cbn [snd] in Hc. subst r.
  unfold print at 1. rewrite !bind_returned.
  apply summary_outcome.
Qed.

Lemma last_stdout_snoc {A} (t : list Event) (line : string) (r : Result A) :
  last (stdout ((t ++ [Print line])%list, r)) "" = line.
Proof.
  unfold stdout. cbn [fst]. rewrite flat_map_app. cbn [flat_map app].
  apply last_last.
Qed.

(** ** Counting *)

Lemma fold_left_b2z_acc (xs : list bool) (a : Z) :
  fold_left (fun acc b => acc + Z.b2z b) xs a = a + py_sum xs.
Proof.
  unfold py_sum. revert a. induction xs as [|x xs IH]; intros a; cbn [fold_left].
  - lia.
  - rewrite IH, (IH (0 + Z.b2z x)). lia.
Qed.

Lemma py_sum_cons (x : bool) (xs : list bool) :
  py_sum (x :: xs) = Z.b2z x + py_sum xs.
Proof. unfold py_sum at 1. cbn [fold_left]. apply fold_left_b2z_acc. Qed.

Lemma valid_count_cons (entry : string * bool) (results : list (string * bool)) :
  valid_count (entry :: results) = Z.b2z (snd entry) + valid_count results.
Proof. unfold valid_count. cbn [map]. apply py_sum_cons. Qed.

Lemma valid_count_bounds (results : list (string * bool)) :
  0 <= valid_count results <= total_count results.
Proof.
  unfold total_count. induction results as [|[k b] results IH].
  - cbv. split; discriminate.
  - rewrite valid_count_cons. cbn [snd List.length]. destruct b; cbn [Z.b2z]; lia.
Qed.

(** ** Two runs *)

(** A ResNet18 state dictionary of 47 MB: loadable, three layers, size
    appropriate, valid. *)
Example resnet18_run :
  verify_model_file sample_world "resnet18/resnet18_weights.pth" "ResNet18"
  = ([ Print (newline ++ rule); Print "Verifying: ResNet18"; Print rule;
       Call_exists "resnet18/resnet18_weights.pth";
       Call_getsize "resnet18/resnet18_weights.pth";
       Print "📁 File: resnet18/resnet18_weights.pth";
       Print "💾 Size: 47.00 MB";
       Call_torch_load "resnet18/resnet18_weights.pth";
       Print "✅ File is loadable";
       Print "📊 Number of layers: 3";
       Print "🔍 First 5 layers:";
       Print "   - conv1.weight"; Print "   - bn1.weight";
       Print "   - bn1.bias";
       Print "✅ File size appropriate for ResNet18" ],
     Returned true).
Proof. reflexivity. Qed.

(** Three valid files out of five: counted 3/5 and announced as partial. *)
Example three_of_five :
  let results := [ ("VGG16", true); ("ResNet18", true); ("MobileNetV2", false);
                   ("AlexNet", true); ("ViT", false) ] in
  valid_count results = 3 /\ total_count results = 5
  /\ classification results = PARTIAL
  /\ stdout (summary results)
     = [ newline ++ rule; "📋 VERIFICATION SUMMARY"; rule;
         "VGG16           : ✅ Valid";
         "ResNet18        : ✅ Valid";
         "MobileNetV2     : ❌ Missing/Invalid";
         "AlexNet         : ✅ Valid";
         "ViT             : ❌ Missing/Invalid";
         newline ++ "3/5 models verified successfully";
         newline ++ "⚠️  2 model(s) missing or invalid";
         "Train the missing models or check file paths";
         newline ++ rule ++ newline ].
Proof. repeat split. Qed.

(** * The claims *)

(** ** C3: the verdict *)

(** C3: [verify_model_file] returns [True] if and only if the file
    exists, [torch.load] returns an object for it and that object is a
    dict; so a [True] verdict implies an existing and loadable file. *)
Theorem valid_iff_exists_loadable_dict :
  forall (w : World) (filepath model_name : string),
    outcome (verify_model_file w filepath model_name) = Returned true
    <-> (outcome (os_path_exists w filepath) = Returned true
         /\ exists checkpoint : PyObj,
              outcome (torch_load w filepath) = Returned checkpoint
              /\ isinstance_dict checkpoint = true).
Proof.
  intros w filepath model_name.
  rewrite verify_model_file_outcome.
  unfold verdict, os_path_exists, torch_load, outcome. cbn [snd].
  destruct (fs w filepath) as [f|].
  - destruct (content f) as [e|obj].
    + split; [discriminate|]. intros [_ [c [H _]]]. discriminate H.
    + split.
      * intros H. split; [reflexivity|]. exists obj.
        split; [reflexivity | congruence].
      * intros [_ [c [H Hd]]]. congruence.
  - split; [discriminate|]. intros [H _]. discriminate H.
Qed.

(** ** C4: a label without a size check *)

(** C4, as the code has it: for a state dictionary under a label the
    chain has no check for, the run ends with the same "File size
    unusual" warning that a size out of range gets, and returns [True];
    there is no third, "unknown" outcome. *)
Theorem no_range_label_gets_unusual_warning :
  forall (w : World) (filepath model_name : string) (f : File)
         (items : list (string * PyObj)),
    fs w filepath = Some f ->
    content f = inr (PyDict items) ->
    has_size_range model_name = false ->
    outcome (verify_model_file w filepath model_name) = Returned true
    /\ last (stdout (verify_model_file w filepath model_name)) ""
       = unusual_line model_name
    /\ forall mb : Q, size_line model_name mb = unusual_line model_name.
Proof.
  intros w filepath model_name f items Hfs Hc Hr.
  rewrite (verify_model_file_dict _ _ _ _ _ Hfs Hc).
  split; [reflexivity|]. split.
  - rewrite !app_assoc, last_stdout_snoc.
    apply size_line_no_range. exact Hr.
  - intros mb. apply size_line_no_range. exact Hr.
Qed.

Lemma no_range_label_gets_unusual_warning_witness :
  outcome (verify_model_file sample_world "densenet/densenet_weights.pth"
             "DenseNet121") = Returned true
  /\ last (stdout (verify_model_file sample_world
                     "densenet/densenet_weights.pth" "DenseNet121")) ""
     = unusual_line "DenseNet121"
  /\ forall mb : Q, size_line "DenseNet121" mb = unusual_line "DenseNet121".
Proof.
  apply (no_range_label_gets_unusual_warning sample_world
           "densenet/densenet_weights.pth" "DenseNet121"
           (mkFile 31457280 (inr sample_state_dict))
           [("conv1.weight", PyTensor); ("bn1.weight", PyTensor);
            ("bn1.bias", PyTensor)]);
    reflexivity.
Defined.

(** C4, as the claim states it, fails: "DenseNet121" has no size check,
    and the line printed for its 30 MB state dictionary is the very
    warning printed for a MobileNetV2 file of 5 MB, which is out of its
    range; it is not an outcome of its own. *)
Lemma no_range_label_same_as_out_of_range :
  has_size_range "DenseNet121" = false
  /\ last (stdout (verify_model_file sample_world
                     "densenet/densenet_weights.pth" "DenseNet121")) ""
     = unusual_line "DenseNet121"
  /\ has_size_range "MobileNetV2" = true
  /\ last (stdout (verify_model_file sample_world
                     "mobilenet/mobilenet_weights.pth" "MobileNetV2")) ""
     = unusual_line "MobileNetV2"
  /\ ~ (forall (model_name : string) (mb : Q),
          has_size_range model_name = false ->
          size_line model_name mb <> appropriate_line model_name
          /\ size_line model_name mb <> unusual_line model_name).
Proof.
  split; [reflexivity|]. split; [reflexivity|]. split; [reflexivity|].
  split; [reflexivity|].
  intros H. destruct (H "DenseNet121" (megabytes 31457280) eq_refl) as [_ Hn].
  apply Hn. reflexivity.
Qed.

(** ** C5: the size never changes the verdict *)

(** C5: a file that exists and loads as a dict gets [True] whatever its
    size; the last line printed is the one the size checks choose, and
    for a size out of the label's range it is the "unusual" warning. *)
Theorem valid_whatever_the_size :
  forall (w : World) (filepath model_name : string) (f : File)
         (items : list (string * PyObj)),
    fs w filepath = Some f ->
    content f = inr (PyDict items) ->
    outcome (verify_model_file w filepath model_name) = Returned true
    /\ last (stdout (verify_model_file w filepath model_name)) ""
       = size_line model_name (megabytes (st_size f))
    /\ (~ within_expected_range model_name (megabytes (st_size f)) ->
        last (stdout (verify_model_file w filepath model_name)) ""
        = unusual_line model_name).
Proof.
  intros w filepath model_name f items Hfs Hc.
  rewrite (verify_model_file_dict _ _ _ _ _ Hfs Hc).
  rewrite !app_assoc, last_stdout_snoc.
  split; [reflexivity|]. split; [reflexivity|].
  apply size_line_out_of_range.
Qed.

(** A MobileNetV2 state dictionary of 5 MB: out of (10, 20), warned
    about, and valid. *)
Lemma valid_whatever_the_size_witness :
  megabytes 5242880 == 5
  /\ ~ within_expected_range "MobileNetV2" (megabytes 5242880)
  /\ outcome (verify_model_file sample_world
                "mobilenet/mobilenet_weights.pth" "MobileNetV2")
     = Returned true
  /\ last (stdout (verify_model_file sample_world
                     "mobilenet/mobilenet_weights.pth" "MobileNetV2")) ""
     = unusual_line "MobileNetV2".
Proof.
  assert (Hout : ~ within_expected_range "MobileNetV2" (megabytes 5242880)).
  { unfold within_expected_range.
    intros [[H _]|[[H _]|[[_ [H _]]|[[H _]|[H _]]]]]; discriminate H. }
  split; [reflexivity|]. split; [exact Hout|].
  destruct (valid_whatever_the_size sample_world
              "mobilenet/mobilenet_weights.pth" "MobileNetV2"
              (mkFile 5242880 (inr sample_state_dict))
              [("conv1.weight", PyTensor); ("bn1.weight", PyTensor);
               ("bn1.bias", PyTensor)] eq_refl eq_refl) as [Hv [_ Hw]].
  split; [exact Hv | exact (Hw Hout)].
Defined.

(** ** C6: a missing file *)

(** C6: when nothing exists at the path, the run is the banner, the
    existence test and the "File not found" line, and the verdict is
    [False]: the size is not measured, [torch.load] is not called, and no
    size, layer-count or layer-name line is printed. *)
Theorem missing_file_reported :
  forall (w : World) (filepath model_name : string),
    outcome (os_path_exists w filepath) = Returned false ->
    verify_model_file w filepath model_name
    = ([ Print (newline ++ rule); Print ("Verifying: " ++ model_name);
         Print rule; Call_exists filepath;
         Print ("❌ File not found: " ++ filepath) ],
       Returned false)
    /\ (forall path : string,
          ~ In (Call_getsize path)
               (fst (verify_model_file w filepath model_name))
          /\ ~ In (Call_torch_load path)
                  (fst (verify_model_file w filepath model_name))).
Proof.
  intros w filepath model_name Hex.
  assert (Hfs : fs w filepath = None).
  { unfold os_path_exists, outcome in Hex. cbn [snd] in Hex.
    destruct (fs w filepath); [discriminate Hex | reflexivity]. }
  rewrite (verify_model_file_missing _ _ _ Hfs).
  split; [reflexivity|].
  intros path. cbn [banner app fst In].
  split; intros H; repeat (destruct H as [H|H]; [discriminate H|]); exact H.
Qed.

Lemma missing_file_reported_witness :
  verify_model_file sample_world "vgg16/vgg16_weights.pth" "VGG16"
  = ([ Print (newline ++ rule); Print "Verifying: VGG16"; Print rule;
       Call_exists "vgg16/vgg16_weights.pth";
       Print "❌ File not found: vgg16/vgg16_weights.pth" ],
     Returned false).
Proof.
  apply (missing_file_reported sample_world "vgg16/vgg16_weights.pth" "VGG16").
  reflexivity.
Defined.

(** ** C7: a file that does not load *)

(** C7: when the file exists and [torch.load] raises, the exception is
    caught inside [verify_model_file]: the verdict is [False] and the
    last line printed carries [str(e)] after a fixed prefix, so it is
    never empty. *)
Theorem load_failure_reported :
  forall (w : World) (filepath model_name : string) (f : File) (e : PyExn),
    fs w filepath = Some f ->
    content f = inl e ->
    outcome (os_path_exists w filepath) = Returned true
    /\ outcome (torch_load w filepath) = Raised e
    /\ verify_model_file w filepath model_name
       = ([ Print (newline ++ rule); Print ("Verifying: " ++ model_name);
            Print rule; Call_exists filepath; Call_getsize filepath;
            Print ("📁 File: " ++ filepath);
            Print ("💾 Size: " ++ format_2f (megabytes (st_size f)) ++ " MB");
            Call_torch_load filepath;
            Print ("❌ Error loading file: " ++ exn_str e) ],
          Returned false)
    /\ "❌ Error loading file: " ++ exn_str e <> "".
Proof.
  intros w filepath model_name f e Hfs Hc.
  rewrite (verify_model_file_load_error _ _ _ _ _ Hfs Hc).
  unfold os_path_exists, torch_load, outcome. cbn [snd]. rewrite Hfs, Hc.
  repeat split. cbn. discriminate.
Qed.

Lemma load_failure_reported_witness :
  verify_model_file sample_world "alexnet/alexnet_weights.pth" "AlexNet"
  = ([ Print (newline ++ rule); Print "Verifying: AlexNet"; Print rule;
       Call_exists "alexnet/alexnet_weights.pth";
       Call_getsize "alexnet/alexnet_weights.pth";
       Print "📁 File: alexnet/alexnet_weights.pth";
       Print "💾 Size: 0.12 MB";
       Call_torch_load "alexnet/alexnet_weights.pth";
       Print "❌ Error loading file: Ran out of input" ],
     Returned false).
Proof.
  apply (load_failure_reported sample_world "alexnet/alexnet_weights.pth"
           "AlexNet" (mkFile 131072 (inl (mkExn "EOFError" "Ran out of input")))
           (mkExn "EOFError" "Ran out of input"));
    reflexivity.
Defined.

(** ** C8: a checkpoint that is not a dict *)

(** C8: when the file exists and loads to an object that is not a dict,
    the verdict is [False], the last line printed says that the
    checkpoint is not a state dictionary, and no layer count or layer
    name is printed. *)
Theorem not_a_state_dict_reported :
  forall (w : World) (filepath model_name : string) (f : File) (obj : PyObj),
    fs w filepath = Some f ->
    content f = inr obj ->
    isinstance_dict obj = false ->
    outcome (os_path_exists w filepath) = Returned true
    /\ outcome (torch_load w filepath) = Returned obj
    /\ verify_model_file w filepath model_name
       = ([ Print (newline ++ rule); Print ("Verifying: " ++ model_name);
            Print rule; Call_exists filepath; Call_getsize filepath;
            Print ("📁 File: " ++ filepath);
            Print ("💾 Size: " ++ format_2f (megabytes (st_size f)) ++ " MB");
            Call_torch_load filepath;
            Print "✅ File is loadable";
            Print "⚠️  Checkpoint is not a state dictionary" ],
          Returned false).
Proof.
  intros w filepath model_name f obj Hfs Hc Hd.
  rewrite (verify_model_file_not_dict _ _ _ _ _ Hfs Hc Hd).
  unfold os_path_exists, torch_load, outcome. cbn [snd]. rewrite Hfs, Hc.
  repeat split.
Qed.

Lemma not_a_state_dict_reported_witness :
  verify_model_file sample_world "vit/vit_weights.pth" "ViT"
  = ([ Print (newline ++ rule); Print "Verifying: ViT"; Print rule;
       Call_exists "vit/vit_weights.pth"; Call_getsize "vit/vit_weights.pth";
       Print "📁 File: vit/vit_weights.pth";
       Print "💾 Size: 330.00 MB";
       Call_torch_load "vit/vit_weights.pth";
       Print "✅ File is loadable";
       Print "⚠️  Checkpoint is not a state dictionary" ],
     Returned false).
Proof.
  apply (not_a_state_dict_reported sample_world "vit/vit_weights.pth" "ViT"
           (mkFile 346030080 (inr PyTensor)) PyTensor);
    reflexivity.
Defined.

(** ** C9: the counts do not depend on the order *)

(** C9: results that are a permutation of one another have the same
    [valid_count] and the same [total_count], hence the same readiness. *)
Theorem counts_permutation_invariant :
  forall r1 r2 : list (string * bool),
    Permutation r1 r2 ->
    valid_count r1 = valid_count r2
    /\ total_count r1 = total_count r2
    /\ classification r1 = classification r2.
Proof.
  intros r1 r2 HP.
  assert (Hv : valid_count r1 = valid_count r2).
  { induction HP as [|x l l' _ IH|x y l|l l' l'' _ IH1 _ IH2].
    - reflexivity.
    - rewrite !valid_count_cons, IH. reflexivity.
    - rewrite !valid_count_cons. lia.
    - congruence. }
  assert (Ht : total_count r1 = total_count r2).
  { unfold total_count. rewrite (Permutation_length HP). reflexivity. }
  unfold classification. rewrite Hv, Ht. repeat split.
Qed.

Lemma counts_permutation_invariant_witness :
  valid_count [("ViT", false); ("VGG16", true); ("ResNet18", true)]
  = valid_count [("VGG16", true); ("ResNet18", true); ("ViT", false)]
  /\ total_count [("ViT", false); ("VGG16", true); ("ResNet18", true)]
     = total_count [("VGG16", true); ("ResNet18", true); ("ViT", false)]
  /\ classification [("ViT", false); ("VGG16", true); ("ResNet18", true)]
     = classification [("VGG16", true); ("ResNet18", true); ("ViT", false)].
Proof.
  apply (counts_permutation_invariant
           [("ViT", false); ("VGG16", true); ("ResNet18", true)]
           [("VGG16", true); ("ResNet18", true); ("ViT", false)]).
  apply Permutation_cons_append.
Defined.

(** ** C10: the VGG16 check and the strict bounds *)

(** C10: for the label "VGG16" the size is found appropriate exactly when
    it is more than 400 MB, however large; the five checks are those of
    [within_expected_range], whose comparisons are all strict, so a size
    equal to a bound is never appropriate. *)
Theorem vgg16_appropriate_iff_above_400 :
  (forall mb : Q,
     size_line "VGG16" mb = appropriate_line "VGG16" <-> (400 < mb)%Q)
  /\ (forall (model_name : string) (mb : Q),
        size_line model_name mb = appropriate_line model_name
        <-> within_expected_range model_name mb)
  /\ (forall (w : World) (filepath : string) (f : File)
             (items : list (string * PyObj)),
        fs w filepath = Some f ->
        content f = inr (PyDict items) ->
        (last (stdout (verify_model_file w filepath "VGG16")) ""
         = appropriate_line "VGG16"
         <-> 400 * 1048576 < Z.of_N (st_size f)))
  /\ (size_line "VGG16" 400 = unusual_line "VGG16"
      /\ size_line "ResNet18" 40 = unusual_line "ResNet18"
      /\ size_line "ResNet18" 60 = unusual_line "ResNet18"
      /\ size_line "MobileNetV2" 10 = unusual_line "MobileNetV2"
      /\ size_line "MobileNetV2" 20 = unusual_line "MobileNetV2"
      /\ size_line "AlexNet" 200 = unusual_line "AlexNet"
      /\ size_line "AlexNet" 250 = unusual_line "AlexNet"
      /\ size_line "ViT" 300 = unusual_line "ViT"
      /\ size_line "ViT" 400 = unusual_line "ViT").
Proof.
  assert (Hvgg : forall mb : Q,
            size_line "VGG16" mb = appropriate_line "VGG16" <-> (400 < mb)%Q).
  { intros mb. rewrite size_line_appropriate. unfold within_expected_range.
    split.
    - intros [[_ H]|[[H _]|[[H _]|[[H _]|[H _]]]]];
        [exact H | discriminate H ..].
    - intros H. left. split; [reflexivity | exact H]. }
  split; [exact Hvgg|]. split; [exact size_line_appropriate|]. split.
  - intros w filepath f items Hfs Hc.
    rewrite (verify_model_file_dict _ _ _ _ _ Hfs Hc).
    rewrite !app_assoc, last_stdout_snoc.
    rewrite Hvgg. apply (megabytes_gt 400).
  - repeat split.
Qed.

Lemma vgg16_appropriate_iff_above_400_witness :
  last (stdout (verify_model_file huge_vgg16_world
                  "vgg16/vgg16_weights.pth" "VGG16")) ""
  = appropriate_line "VGG16"
  <-> 400 * 1048576 < Z.of_N 10995116277760.
Proof.
  apply (proj1 (proj2 (proj2 vgg16_appropriate_iff_above_400))
           huge_vgg16_world "vgg16/vgg16_weights.pth"
           (mkFile 10995116277760 (inr sample_state_dict))
           [("conv1.weight", PyTensor); ("bn1.weight", PyTensor);
            ("bn1.bias", PyTensor)]);
    reflexivity.
Defined.

(** * Further properties of the script *)

(** ** The loop of main *)

Lemma dict_set_fresh {V} (d : list (string * V)) (key : string) (value : V) :
  ~ In key (map fst d) -> dict_set d key value = (d ++ [(key, value)])%list.
Proof.
  induction d as [|[k v] d IH]; intros Hn; [reflexivity|].
  cbn [dict_set app]. cbn [map fst In] in Hn.
  destruct (String.eqb_spec k key) as [E|_]; [exfalso; auto|].
  rewrite IH; [reflexivity | intros H; apply Hn; right; exact H].
Qed.

Lemma result_entry_verdict (w : World) (entry : string * string) :
  result_entry w entry = (fst entry, verdict w (snd entry)).
Proof.
  unfold result_entry. rewrite verify_model_file_outcome. reflexivity.
Qed.

Lemma fill_results_distinct (w : World) (todo : list (string * string)) :
  forall results : list (string * bool),
    NoDup (map fst results ++ map fst todo) ->
    fold_left
      (fun acc entry => dict_set acc (fst entry) (verdict w (snd entry)))
      todo results
    = (results ++ map (result_entry w) todo)%list.
Proof.
  induction todo as [|[label path] todo IH]; intros results Hnd.
  - cbn. rewrite app_nil_r. reflexivity.
  - cbn [fold_left map fst snd].
    cbn [map fst] in Hnd.
    rewrite dict_set_fresh.
    + rewrite IH.
      * rewrite <- app_assoc. cbn [app].
        rewrite result_entry_verdict. reflexivity.
      * rewrite map_app, <- app_assoc. cbn [map fst app]. exact Hnd.
    + apply NoDup_remove_2 in Hnd. intros H. apply Hnd.
      apply in_or_app. left. exact H.
Qed.

Lemma check_models_trace (w : World) (todo : list (string * string)) :
  forall results : list (string * bool),
    fst (check_models w todo results)
    = flat_map (fun entry => fst (verify_model_file w (snd entry) (fst entry)))
        todo.
Proof.
  induction todo as [|[label path] todo IH]; intros results; [reflexivity|].
  cbn [check_models flat_map fst snd].
  pose proof (verify_model_file_outcome w path label) as Hv.
  destruct (verify_model_file w path label) as [t r].
  unfold outcome in Hv; cbn [snd] in Hv. subst r.
  rewrite bind_returned. cbn [fst]. rewrite IH. reflexivity.
Qed.

Lemma check_models_distinct_outcome (w : World)
    (todo : list (string * string)) :
  NoDup (map fst todo) ->
  outcome (check_models w todo []) = Returned (map (result_entry w) todo).
Proof.
  intros Hnd. rewrite check_models_outcome.
  rewrite fill_results_distinct; [reflexivity | exact Hnd].
Qed.

(** X1: for a catalogue whose labels are distinct (as the keys of a dict
    literal are), the loop returns one entry per catalogue entry, in the
    order of the catalogue, each holding the label and the verdict of
    [verify_model_file] for its path; none is lost or overwritten. *)
Theorem check_models_one_entry_per_label :
  forall (w : World) (todo : list (string * string)),
    NoDup (map fst todo) ->
    outcome (check_models w todo []) = Returned (map (result_entry w) todo)
    /\ total_count (map (result_entry w) todo) = Z.of_nat (List.length todo).
Proof.
  intros w todo Hnd. split.
  - apply check_models_distinct_outcome. exact Hnd.
  - unfold total_count. rewrite length_map. reflexivity.
Qed.

Lemma models_to_check_distinct : NoDup (map fst models_to_check).
Proof.
  cbn. repeat constructor; cbn; intros H;
    repeat (destruct H as [H|H]; [discriminate H|]); exact H.
Qed.

Lemma check_models_one_entry_per_label_witness :
  outcome (check_models sample_world models_to_check [])
  = Returned [ ("VGG16", false); ("ResNet18", true); ("MobileNetV2", true);
               ("AlexNet", false); ("ViT", false) ].
Proof.
  apply (check_models_one_entry_per_label sample_world models_to_check).
  cbn. repeat constructor; cbn; intros H;
    repeat (destruct H as [H|H]; [discriminate H|]); exact H.
Defined.

(** ** What main does with the environment *)

Lemma env_calls_app (t1 t2 : list Event) :
  env_calls (t1 ++ t2) = (env_calls t1 ++ env_calls t2)%list.
Proof. apply filter_app. Qed.

Lemma env_calls_prints {A} (g : A -> string) (xs : list A) :
  env_calls (map (fun x => Print (g x)) xs) = [].
Proof. induction xs as [|x xs IH]; [reflexivity | exact IH]. Qed.

Lemma summary_trace (results : list (string * bool)) :
  fst (summary results)
  = ([ Print (newline ++ rule); Print "📋 VERIFICATION SUMMARY"; Print rule ]
     ++ map (fun entry => Print (status_line entry)) results
     ++ [ Print (newline ++ str_int (valid_count results) ++ "/"
                 ++ str_int (total_count results)
                 ++ " models verified successfully") ]
     ++ fst (announce (classification results)
               (valid_count results) (total_count results))
     ++ [ Print (newline ++ rule ++ newline) ])%list.
Proof.
  unfold summary, classification, status_line.
  cbv beta iota zeta delta [bind].
  rewrite for_each_print.
  destruct (readiness (valid_count results) (total_count results)); reflexivity.
Qed.

Lemma env_calls_summary (results : list (string * bool)) :
  env_calls (fst (summary results)) = [].
Proof.
  rewrite summary_trace, !env_calls_app, env_calls_prints.
  destruct (classification results); reflexivity.
Qed.

Lemma env_calls_verify (w : World) (filepath model_name : string) :
  env_calls (fst (verify_model_file w filepath model_name))
  = match fs w filepath with
    | Some _ =>
        [ Call_exists filepath; Call_getsize filepath;
          Call_torch_load filepath ]
    | None => [ Call_exists filepath ]
    end.
Proof.
  destruct (fs w filepath) as [f|] eqn:Hfs.
  - destruct (content f) as [e|obj] eqn:Hc.
    + rewrite (verify_model_file_load_error _ _ _ _ _ Hfs Hc). reflexivity.
    + destruct (isinstance_dict obj) eqn:Hd.
      * destruct obj; try discriminate Hd.
        rewrite (verify_model_file_dict _ _ _ _ _ Hfs Hc).
        cbn [fst]. rewrite !env_calls_app, env_calls_prints. reflexivity.
      * rewrite (verify_model_file_not_dict _ _ _ _ _ Hfs Hc Hd). reflexivity.
  - rewrite (verify_model_file_missing _ _ _ Hfs). reflexivity.
Qed.

Lemma main_trace (w : World) :
  fst (main w)
  = (Print (newline ++ "🔍 SiteLenz Model Verification Tool" ++ newline)
     :: flat_map
          (fun entry => fst (verify_model_file w (snd entry) (fst entry)))
          models_to_check
     ++ fst (summary (map (result_entry w) models_to_check)))%list.
Proof.
  unfold main.
  pose proof (check_models_distinct_outcome w models_to_check
                models_to_check_distinct) as Ho.
  pose proof (check_models_trace w models_to_check []) as Ht.
  destruct (check_models w models_to_check []) as [t r].
  unfold outcome in Ho; cbn [snd] in Ho. cbn [fst] in Ht. subst r t.
  unfold print at 1. rewrite !bind_returned. reflexivity.
Qed.

Lemma env_calls_flat_map {A} (g : A -> list Event) (xs : list A) :
  env_calls (flat_map g xs) = flat_map (fun x => env_calls (g x)) xs.
Proof.
  induction xs as [|x xs IH]; [reflexivity|].
  cbn [flat_map]. rewrite env_calls_app, IH. reflexivity.
Qed.

Lemma env_calls_main (w : World) :
  env_calls (fst (main w))
  = flat_map
      (fun entry =>
         match fs w (snd entry) with
         | Some _ =>
             [ Call_exists (snd entry); Call_getsize (snd entry);
               Call_torch_load (snd entry) ]
         | None => [ Call_exists (snd entry) ]
         end)
      models_to_check.
Proof.
  rewrite main_trace.
  change (env_calls (?p :: ?t)) with (env_calls t).
  rewrite env_calls_app, env_calls_summary, app_nil_r, env_calls_flat_map.
  apply flat_map_ext. intros entry. apply env_calls_verify.
Qed.

(** X2: [verify_model_file] touches nothing but its own path: it tests
    the existence once, and only when the file exists does it measure it
    and load it, once each and in that order. *)
Theorem verify_model_file_calls :
  forall (w : World) (filepath model_name : string),
    env_calls (fst (verify_model_file w filepath model_name))
    = match fs w filepath with
      | Some _ =>
          [ Call_exists filepath; Call_getsize filepath;
            Call_torch_load filepath ]
      | None => [ Call_exists filepath ]
      end.
Proof. exact env_calls_verify. Qed.

(** X3: [main] is its title line, then the runs of [verify_model_file]
    on the five catalogue entries in the order of the catalogue, then the
    summary of the five verdicts. *)
Theorem main_runs_catalogue_in_order :
  forall w : World,
    fst (main w)
    = (Print (newline ++ "🔍 SiteLenz Model Verification Tool" ++ newline)
       :: fst (verify_model_file w "vgg16/vgg16_weights.pth" "VGG16")
       ++ fst (verify_model_file w "resnet18/resnet18_weights.pth" "ResNet18")
       ++ fst (verify_model_file w "mobilenet/mobilenet_weights.pth"
                 "MobileNetV2")
       ++ fst (verify_model_file w "alexnet/alexnet_weights.pth" "AlexNet")
       ++ fst (verify_model_file w "vit/vit_weights.pth" "ViT")
       ++ fst (summary (map (result_entry w) models_to_check)))%list.
Proof.
  intros w. rewrite main_trace. cbn [models_to_check flat_map fst snd].
  rewrite app_nil_r, <- !app_assoc. reflexivity.
Qed.

(** X4: the calls [main] makes to the environment are exactly those of
    the five runs of [verify_model_file], in catalogue order: for each
    catalogue path the existence test, followed by the measure and the
    load when the file exists.  The summary makes no call at all.  So a
    file is measured or loaded only if it is a catalogue path that
    exists, and no path outside the catalogue is ever tested. *)
Theorem main_touches_only_catalogue :
  forall w : World,
    env_calls (fst (main w))
    = flat_map
        (fun entry =>
           match fs w (snd entry) with
           | Some _ =>
               [ Call_exists (snd entry); Call_getsize (snd entry);
                 Call_torch_load (snd entry) ]
           | None => [ Call_exists (snd entry) ]
           end)
        models_to_check
    /\ (forall results : list (string * bool),
          env_calls (fst (summary results)) = [])
    /\ (forall path : string,
          (In (Call_torch_load path) (fst (main w)) ->
           In path (map snd models_to_check) /\ fs w path <> None)
          /\ (In (Call_getsize path) (fst (main w)) ->
              In path (map snd models_to_check) /\ fs w path <> None)
          /\ (In (Call_exists path) (fst (main w)) ->
              In path (map snd models_to_check))).
Proof.
  intros w.
  split; [apply env_calls_main|]. split; [exact env_calls_summary|].
  intros path.
  assert (Hin : forall ev : Event,
            (match ev with Print _ => false | _ => true end) = true ->
            In ev (fst (main w)) ->
            exists entry, In entry models_to_check
              /\ In ev (match fs w (snd entry) with
                        | Some _ =>
                            [ Call_exists (snd entry); Call_getsize (snd entry);
                              Call_torch_load (snd entry) ]
                        | None => [ Call_exists (snd entry) ]
                        end)).
  { intros ev Hev H.
    assert (H' : In ev (env_calls (fst (main w)))).
    { unfold env_calls. apply filter_In. split; assumption. }
    rewrite env_calls_main in H'. apply in_flat_map in H'. exact H'. }
  split; [|split]; intros H.
  - destruct (Hin (Call_torch_load path) eq_refl H) as [entry [He Hc]].
    destruct (fs w (snd entry)) eqn:Hfs; cbn [In] in Hc;
      repeat (destruct Hc as [Hc|Hc]; try discriminate Hc); try contradiction.
    injection Hc as <-. split; [apply in_map; exact He | congruence].
  - destruct (Hin (Call_getsize path) eq_refl H) as [entry [He Hc]].
    destruct (fs w (snd entry)) eqn:Hfs; cbn [In] in Hc;
      repeat (destruct Hc as [Hc|Hc]; try discriminate Hc); try contradiction.
    injection Hc as <-. split; [apply in_map; exact He | congruence].
  - destruct (Hin (Call_exists path) eq_refl H) as [entry [He Hc]].
    destruct (fs w (snd entry)) eqn:Hfs; cbn [In] in Hc;
      repeat (destruct Hc as [Hc|Hc]; try discriminate Hc); try contradiction;
      injection Hc as <-; apply in_map; exact He.
Qed.

Lemma main_touches_only_catalogue_witness :
  In "resnet18/resnet18_weights.pth" (map snd models_to_check)
  /\ fs sample_world "resnet18/resnet18_weights.pth" <> None.
Proof.
  apply (proj1 (proj2 (proj2 (main_touches_only_catalogue sample_world))
                  "resnet18/resnet18_weights.pth")).
  vm_compute. repeat (first [left; reflexivity | right]).
Defined.

(** ** The three outcomes of the summary, entry by entry *)

Lemma valid_count_total_cons (entry : string * bool)
    (results : list (string * bool)) :
  total_count (entry :: results) = 1 + total_count results.
Proof. unfold total_count. cbn [List.length]. lia. Qed.

Lemma valid_count_all (results : list (string * bool)) :
  valid_count results = total_count results
  <-> Forall (fun entry => snd entry = true) results.
Proof.
  induction results as [|[k b] results IH].
  - split; [constructor | reflexivity].
  - rewrite valid_count_cons, valid_count_total_cons. cbn [snd].
    pose proof (valid_count_bounds results) as Hb.
    split.
    + intros H. destruct b; cbn [Z.b2z] in H; [|lia].
      constructor; [reflexivity | apply IH; lia].
    + intros H. inversion H as [|x l Hx Hl]; subst. cbn [snd] in Hx. subst b.
      apply IH in Hl. cbn [Z.b2z]. lia.
Qed.

Lemma valid_count_zero (results : list (string * bool)) :
  valid_count results = 0
  <-> Forall (fun entry => snd entry = false) results.
Proof.
  induction results as [|[k b] results IH].
  - split; [constructor | reflexivity].
  - rewrite valid_count_cons. cbn [snd].
    pose proof (valid_count_bounds results) as Hb.
    split.
    + intros H. destruct b; cbn [Z.b2z] in H; [lia|].
      constructor; [reflexivity | apply IH; lia].
    + intros H. inversion H as [|x l Hx Hl]; subst. cbn [snd] in Hx. subst b.
      apply IH in Hl. cbn [Z.b2z]. lia.
Qed.

Lemma not_all_false_some_true (results : list (string * bool)) :
  ~ Forall (fun entry => snd entry = false) results
  <-> Exists (fun entry : string * bool => snd entry = true) results.
Proof.
  induction results as [|[k b] results IH].
  - split; [intros H; exfalso; apply H; constructor | intros H; inversion H].
  - split.
    + intros H. destruct b; [left; reflexivity|].
      right. apply IH. intros Hf. apply H. constructor; [reflexivity | exact Hf].
    + intros H Hf. inversion Hf as [|x l Hx Hl]; subst. cbn [snd] in Hx.
      inversion H as [x l Ht|x l Ht]; subst.
      * cbn [snd] in Ht. congruence.
      * apply IH in Ht. contradiction.
Qed.

Lemma not_all_true_some_false (results : list (string * bool)) :
  ~ Forall (fun entry => snd entry = true) results
  <-> Exists (fun entry : string * bool => snd entry = false) results.
Proof.
  induction results as [|[k b] results IH].
  - split; [intros H; exfalso; apply H; constructor | intros H; inversion H].
  - split.
    + intros H. destruct b; [|left; reflexivity].
      right. apply IH. intros Hf. apply H. constructor; [reflexivity | exact Hf].
    + intros H Hf. inversion Hf as [|x l Hx Hl]; subst. cbn [snd] in Hx.
      inversion H as [x l Ht|x l Ht]; subst.
      * cbn [snd] in Ht. congruence.
      * apply IH in Ht. contradiction.
Qed.

Lemma classification_cases (results : list (string * bool)) :
  (classification results = ALL_READY
   <-> valid_count results = total_count results)
  /\ (classification results = PARTIAL
      <-> valid_count results <> total_count results
          /\ valid_count results <> 0)
  /\ (classification results = NONE_READY
      <-> valid_count results <> total_count results
          /\ valid_count results = 0).
Proof.
  pose proof (valid_count_bounds results) as Hb.
  unfold classification, readiness.
  destruct (Z.eqb_spec (valid_count results) (total_count results)) as [E|N];
    [|destruct (Z.ltb_spec 0 (valid_count results))].
  all: repeat split; intros; try discriminate; try lia; try tauto.
Qed.

(** X5: the summary announces "all models are ready" exactly when every
    entry of the results is valid (which an empty result set is). *)
Theorem all_ready_iff_every_entry_valid :
  forall results : list (string * bool),
    classification results = ALL_READY
    <-> Forall (fun entry => snd entry = true) results.
Proof.
  intros results. rewrite <- valid_count_all.
  apply (proj1 (classification_cases results)).
Qed.

(** X6: the summary announces "no valid models found" exactly when there
    is at least one entry and every entry is invalid. *)
Theorem none_ready_iff_every_entry_invalid :
  forall results : list (string * bool),
    classification results = NONE_READY
    <-> results <> [] /\ Forall (fun entry => snd entry = false) results.
Proof.
  intros results.
  rewrite (proj2 (proj2 (classification_cases results))), <- valid_count_zero.
  split.
  - intros [Hne Hz]. split; [|exact Hz].
    intros ->. apply Hne. reflexivity.
  - intros [Hne Hz]. split; [|exact Hz].
    intros Heq. rewrite Hz in Heq. destruct results; [contradiction|].
    unfold total_count in Heq. cbn [List.length] in Heq. lia.
Qed.

(** X7: the summary announces "N model(s) missing or invalid" exactly
    when some entry is valid and some entry is not; then
    [0 < valid_count < total_count], so the N it prints is at least 1 and
    less than the number of entries. *)
Theorem partial_iff_mixed_entries :
  forall results : list (string * bool),
    (classification results = PARTIAL
     <-> Exists (fun entry => snd entry = true) results
         /\ Exists (fun entry => snd entry = false) results)
    /\ (classification results = PARTIAL ->
        0 < valid_count results < total_count results
        /\ 0 < total_count results - valid_count results
           < total_count results).
Proof.
  intros results.
  pose proof (valid_count_bounds results) as Hb.
  pose proof (proj1 (proj2 (classification_cases results))) as Hp.
  split.
  - rewrite Hp, <- not_all_false_some_true, <- not_all_true_some_false,
      <- valid_count_all, <- valid_count_zero. tauto.
  - intros H. apply Hp in H. lia.
Qed.

Lemma partial_iff_mixed_entries_witness :
  0 < valid_count [("VGG16", true); ("ViT", false); ("AlexNet", true)]
    < total_count [("VGG16", true); ("ViT", false); ("AlexNet", true)]
  /\ 0 < total_count [("VGG16", true); ("ViT", false); ("AlexNet", true)]
         - valid_count [("VGG16", true); ("ViT", false); ("AlexNet", true)]
       < total_count [("VGG16", true); ("ViT", false); ("AlexNet", true)].
Proof.
  apply (proj2 (partial_iff_mixed_entries
                  [("VGG16", true); ("ViT", false); ("AlexNet", true)])).
  reflexivity.
Defined.

(** X8: [valid_count] is the number of valid entries, and the number the
    "missing or invalid" line prints is the number of invalid entries,
    that is, of status lines marked "Missing/Invalid". *)
Theorem counts_are_numbers_of_entries :
  forall results : list (string * bool),
    valid_count results
    = Z.of_nat (List.length (filter (fun entry => snd entry) results))
    /\ total_count results - valid_count results
       = Z.of_nat
           (List.length (filter (fun entry => negb (snd entry)) results))
    /\ 0 <= valid_count results <= total_count results.
Proof.
  intros results. split; [|split; [|apply valid_count_bounds]].
  - induction results as [|[k b] results IH]; [reflexivity|].
    rewrite valid_count_cons. cbn [filter snd].
    destruct b; cbn [Z.b2z List.length]; lia.
  - induction results as [|[k b] results IH]; [reflexivity|].
    rewrite valid_count_cons, valid_count_total_cons. cbn [filter snd].
    destruct b; cbn [Z.b2z List.length negb]; lia.
Qed.

(** ** What main announces *)

Lemma result_entry_valid (w : World) (entry : string * string) (b : bool) :
  snd (result_entry w entry) = b
  <-> outcome (verify_model_file w (snd entry) (fst entry)) = Returned b.
Proof.
  unfold result_entry. cbn [snd]. rewrite verify_model_file_outcome.
  split; [intros -> | intros H; injection H as ->]; reflexivity.
Qed.

Lemma Forall_results (w : World) (b : bool) (todo : list (string * string)) :
  Forall (fun entry => snd entry = b) (map (result_entry w) todo)
  <-> (forall entry, In entry todo ->
         outcome (verify_model_file w (snd entry) (fst entry)) = Returned b).
Proof.
  rewrite Forall_map, Forall_forall. split; intros H entry Hin.
  - apply result_entry_valid. apply H. exact Hin.
  - apply result_entry_valid. apply H. exact Hin.
Qed.

(** X9: what [main] announces, in terms of the five files: its run ends
    with the lines of the branch chosen for the five verdicts and the
    closing rule; the branch is "all models are ready" exactly when
    [verify_model_file] returns [True] for every catalogue entry, and "no
    valid models found" exactly when it returns [False] for every one. *)
Theorem main_announcement :
  forall w : World,
    let results := map (result_entry w) models_to_check in
    (exists t : list Event,
       fst (main w)
       = (t ++ fst (announce (classification results)
                      (valid_count results) (total_count results))
            ++ [ Print (newline ++ rule ++ newline) ])%list)
    /\ (classification results = ALL_READY
        <-> forall entry, In entry models_to_check ->
              outcome (verify_model_file w (snd entry) (fst entry))
              = Returned true)
    /\ (classification results = NONE_READY
        <-> forall entry, In entry models_to_check ->
              outcome (verify_model_file w (snd entry) (fst entry))
              = Returned false).
Proof.
  intros w results. split; [|split].
  - rewrite main_trace, summary_trace. fold results.
    eexists. rewrite app_comm_cons, !app_assoc. reflexivity.
  - rewrite <- Forall_results. fold results.
    rewrite <- valid_count_all.
    apply (proj1 (classification_cases results)).
  - rewrite <- Forall_results. fold results.
    rewrite <- valid_count_zero.
    rewrite (proj2 (proj2 (classification_cases results))).
    split; [tauto|]. intros Hz. split; [|exact Hz].
    rewrite Hz. discriminate.
Qed.

Lemma main_announcement_witness :
  classification (map (result_entry all_valid_world) models_to_check)
  = ALL_READY.
Proof.
  apply (proj1 (proj2 (main_announcement all_valid_world))).
  intros entry Hin. cbn [models_to_check In] in Hin.
  repeat (destruct Hin as [Hin|Hin]; [subst entry; reflexivity|]).
  contradiction.
Defined.

(** ** The lines of the summary *)

Lemma stdout_prints {A} (g : A -> string) (xs : list A) :
  flat_map (fun ev => match ev with Print s => [s] | _ => [] end)
    (map (fun x => Print (g x)) xs)
  = map g xs.
Proof.
  induction xs as [|x xs IH]; [reflexivity|]. cbn [map flat_map app].
  rewrite IH. reflexivity.
Qed.

(** X10: the summary prints three header lines, then one status line per
    entry of the results, in their order, marked valid exactly for the
    valid entries, then the count line, the two lines of the branch taken
    and the closing rule: seven lines plus one per entry. *)
Theorem summary_one_status_line_per_entry :
  forall results : list (string * bool),
    stdout (summary results)
    = ([ (newline ++ rule)%string; "📋 VERIFICATION SUMMARY"; rule ]
       ++ map status_line results
       ++ [ (newline ++ str_int (valid_count results) ++ "/"
             ++ str_int (total_count results)
             ++ " models verified successfully")%string ]
       ++ stdout (announce (classification results)
                    (valid_count results) (total_count results))
       ++ [ (newline ++ rule ++ newline)%string ])%list
    /\ List.length (stdout (summary results))
       = (List.length results + 7)%nat.
Proof.
  intros results.
  assert (E : stdout (summary results)
    = ([ (newline ++ rule)%string; "📋 VERIFICATION SUMMARY"; rule ]
       ++ map status_line results
       ++ [ (newline ++ str_int (valid_count results) ++ "/"
             ++ str_int (total_count results)
             ++ " models verified successfully")%string ]
       ++ stdout (announce (classification results)
                    (valid_count results) (total_count results))
       ++ [ (newline ++ rule ++ newline)%string ])%list).
  { unfold stdout. rewrite summary_trace.
    rewrite !flat_map_app, stdout_prints. reflexivity. }
  split; [exact E|].
  rewrite E, !length_app, length_map.
  destruct (classification results); cbn [List.length stdout announce]; cbn; lia.
Qed.

(** ** The lines of a valid checkpoint *)

(** X11: for a state dictionary, [verify_model_file] prints the number
    of all its entries but the names of the first five only, in the
    dict's order; a dict of fewer than five entries (an empty one too) has
    all its names printed and is valid all the same. *)
Theorem layer_count_and_first_five_names :
  forall (w : World) (filepath model_name : string) (f : File)
         (items : list (string * PyObj)),
    fs w filepath = Some f ->
    content f = inr (PyDict items) ->
    stdout (verify_model_file w filepath model_name)
    = ([ (newline ++ rule)%string; ("Verifying: " ++ model_name)%string; rule;
         ("📁 File: " ++ filepath)%string;
         ("💾 Size: " ++ format_2f (megabytes (st_size f)) ++ " MB")%string;
         "✅ File is loadable";
         ("📊 Number of layers: "
          ++ str_int (Z.of_nat (List.length items)))%string;
         "🔍 First 5 layers:" ]
       ++ map (fun name => ("   - " ++ name)%string) (firstn 5 (map fst items))
       ++ [ size_line model_name (megabytes (st_size f)) ])%list
    /\ List.length (stdout (verify_model_file w filepath model_name))
       = (9 + Nat.min 5 (List.length items))%nat
    /\ outcome (verify_model_file w filepath model_name) = Returned true.
Proof.
  intros w filepath model_name f items Hfs Hc.
  rewrite (verify_model_file_dict _ _ _ _ _ Hfs Hc).
  unfold stdout, outcome. cbn [fst snd].
  rewrite !flat_map_app, stdout_prints.
  split; [reflexivity|]. split; [|reflexivity].
  cbn [banner flat_map app].
  cbn [List.length]. rewrite length_app, length_map, length_firstn, length_map.
  cbn [List.length]. lia.
Qed.

Lemma layer_count_and_first_five_names_witness :
  stdout (verify_model_file decimal_41mb_world
            "resnet18/resnet18_weights.pth" "ResNet18")
  = [ newline ++ rule; "Verifying: ResNet18"; rule;
      "📁 File: resnet18/resnet18_weights.pth";
      "💾 Size: 39.10 MB";
      "✅ File is loadable";
      "📊 Number of layers: 7";
      "🔍 First 5 layers:";
      "   - features.0.weight"; "   - features.0.bias";
      "   - features.3.weight"; "   - features.3.bias";
      "   - classifier.1.weight";
      "⚠️  File size unusual for ResNet18" ].
Proof.
  apply (layer_count_and_first_five_names decimal_41mb_world
           "resnet18/resnet18_weights.pth" "ResNet18"
           (mkFile 41000000 (inr seven_layer_dict))
           [("features.0.weight", PyTensor); ("features.0.bias", PyTensor);
            ("features.3.weight", PyTensor); ("features.3.bias", PyTensor);
            ("classifier.1.weight", PyTensor); ("classifier.1.bias", PyTensor);
            ("classifier.4.weight", PyTensor)]);
    reflexivity.
Defined.

(** ** Sizes in bytes *)

Lemma megabytes_lt (k : Z) (size : N) :
  (megabytes size < inject_Z k)%Q <-> Z.of_N size < k * 1048576.
Proof.
  unfold megabytes, Qlt, Qdiv, Qmult, Qinv, inject_Z. cbn. lia.
Qed.

(** X12: the size checks are in binary megabytes.  In bytes, a state
    dictionary is found of appropriate size exactly when its label and
    size are in one of five open ranges: VGG16 above 419,430,400;
    ResNet18 between 41,943,040 and 62,914,560; MobileNetV2 between
    10,485,760 and 20,971,520; AlexNet between 209,715,200 and
    262,144,000; ViT between 314,572,800 and 419,430,400. *)
Theorem size_check_in_bytes :
  forall (w : World) (filepath model_name : string) (f : File)
         (items : list (string * PyObj)),
    fs w filepath = Some f ->
    content f = inr (PyDict items) ->
    (last (stdout (verify_model_file w filepath model_name)) ""
     = appropriate_line model_name
     <-> (model_name = "VGG16" /\ 419430400 < st_size f)%N
         \/ (model_name = "ResNet18"
             /\ 41943040 < st_size f /\ st_size f < 62914560)%N
         \/ (model_name = "MobileNetV2"
             /\ 10485760 < st_size f /\ st_size f < 20971520)%N
         \/ (model_name = "AlexNet"
             /\ 209715200 < st_size f /\ st_size f < 262144000)%N
         \/ (model_name = "ViT"
             /\ 314572800 < st_size f /\ st_size f < 419430400)%N).
Proof.
  intros w filepath model_name f items Hfs Hc.
  rewrite (verify_model_file_dict _ _ _ _ _ Hfs Hc).
  rewrite !app_assoc, last_stdout_snoc.
  rewrite size_line_appropriate. unfold within_expected_range.
  pose proof (megabytes_gt 400 (st_size f)) as G400.
  pose proof (megabytes_gt 40 (st_size f)) as G40.
  pose proof (megabytes_lt 60 (st_size f)) as L60.
  pose proof (megabytes_gt 10 (st_size f)) as G10.
  pose proof (megabytes_lt 20 (st_size f)) as L20.
  pose proof (megabytes_gt 200 (st_size f)) as G200.
  pose proof (megabytes_lt 250 (st_size f)) as L250.
  pose proof (megabytes_gt 300 (st_size f)) as G300.
  pose proof (megabytes_lt 400 (st_size f)) as L400.
  change (inject_Z 400) with 400%Q in *. change (inject_Z 40) with 40%Q in *.
  change (inject_Z 60) with 60%Q in *. change (inject_Z 10) with 10%Q in *.
  change (inject_Z 20) with 20%Q in *. change (inject_Z 200) with 200%Q in *.
  change (inject_Z 250) with 250%Q in *. change (inject_Z 300) with 300%Q in *.
  rewrite G400, G40, L60, G10, L20, G200, L250, G300, L400.
  rewrite !N2Z.inj_lt. reflexivity.
Qed.

(** 41,000,000 bytes are less than 40 binary megabytes: a ResNet18 file
    of that size gets the warning. *)
Lemma size_check_in_bytes_witness :
  last (stdout (verify_model_file decimal_41mb_world
                  "resnet18/resnet18_weights.pth" "ResNet18")) ""
  <> appropriate_line "ResNet18".
Proof.
  intros H.
  apply (size_check_in_bytes decimal_41mb_world
           "resnet18/resnet18_weights.pth" "ResNet18"
           (mkFile 41000000 (inr seven_layer_dict))
           [("features.0.weight", PyTensor); ("features.0.bias", PyTensor);
            ("features.3.weight", PyTensor); ("features.3.bias", PyTensor);
            ("classifier.1.weight", PyTensor); ("classifier.1.bias", PyTensor);
            ("classifier.4.weight", PyTensor)] eq_refl eq_refl) in H.
  cbn [st_size] in H.
  destruct H as [[H _]|[[_ [H _]]|[[H _]|[[H _]|[H _]]]]]; discriminate H.
Defined.

(** X13: the label plays no part in the verdict or in what is read: for
    the same path, two labels give the same returned boolean and the
    same calls to the environment; only printed lines differ. *)
Theorem verdict_independent_of_label :
  forall (w : World) (filepath label1 label2 : string),
    outcome (verify_model_file w filepath label1)
    = outcome (verify_model_file w filepath label2)
    /\ env_calls (fst (verify_model_file w filepath label1))
       = env_calls (fst (verify_model_file w filepath label2)).
Proof.
  intros w filepath label1 label2.
  rewrite !verify_model_file_outcome, !env_calls_verify.
  split; reflexivity.
Qed.

(** ** The printed size *)

(** X14: for a file of less than [2^53] bytes (where the float the
    script formats is the exact quotient), the fifth line printed is the
    "Size" line, and the number it shows, with two decimals, is the size
    in binary megabytes rounded to the nearest hundredth: its hundredths
    [h] are not negative and differ from [100 * st_size / 1048576] by at
    most one half. *)
Theorem printed_size_is_nearest_hundredth :
  forall (w : World) (filepath model_name : string) (f : File),
    fs w filepath = Some f ->
    (st_size f < 2 ^ 53)%N ->
    exists h : Z,
      nth_error (stdout (verify_model_file w filepath model_name)) 4
      = Some ("💾 Size: "
              ++ (str_int (h / 100) ++ "." ++ two_digits (h mod 100))
              ++ " MB")
      /\ format_2f (megabytes (st_size f))
         = str_int (h / 100) ++ "." ++ two_digits (h mod 100)
      /\ 0 <= h
      /\ 2 * Z.abs (100 * Z.of_N (st_size f) - h * 1048576) <= 1048576.
Proof.
  intros w filepath model_name f Hfs _.
  exists (round_hundredths (megabytes (st_size f))).
  split; [|split; [reflexivity|]].
  - destruct (content f) as [e|obj] eqn:Hc.
    + rewrite (verify_model_file_load_error _ _ _ _ _ Hfs Hc). reflexivity.
    + destruct (isinstance_dict obj) eqn:Hd.
      * destruct obj; try discriminate Hd.
        rewrite (verify_model_file_dict _ _ _ _ _ Hfs Hc). reflexivity.
      * rewrite (verify_model_file_not_dict _ _ _ _ _ Hfs Hc Hd). reflexivity.
  - unfold round_hundredths.
    change (Qnum (megabytes (st_size f))) with (Z.of_N (st_size f) * 1).
    change (Z.pos (Qden (megabytes (st_size f)))) with 1048576.
    replace (Z.of_N (st_size f) * 1 * 100) with (Z.of_N (st_size f) * 100)
      by lia.
    replace (100 * Z.of_N (st_size f)) with (Z.of_N (st_size f) * 100) by lia.
    set (n := Z.of_N (st_size f) * 100).
    assert (Hn : 0 <= n) by (unfold n; lia).
    pose proof (Z.div_mod n 1048576 ltac:(discriminate)) as Hdm.
    pose proof (Z.mod_pos_bound n 1048576 ltac:(reflexivity)) as Hr.
    pose proof (Z.div_pos n 1048576 Hn ltac:(reflexivity)) as Hq.
    destruct (Z.compare_spec (2 * (n mod 1048576)) 1048576) as [E|E|E].
    + destruct (Z.even (n / 1048576)); split; lia.
    + split; lia.
    + split; lia.
Qed.

(** 131,072 bytes are 0.125 binary megabytes, halfway between two
    hundredths: the line shows 0.12, the even one. *)
Lemma printed_size_is_nearest_hundredth_witness :
  exists h : Z,
    nth_error (stdout (verify_model_file sample_world
                         "alexnet/alexnet_weights.pth" "AlexNet")) 4
    = Some ("💾 Size: "
            ++ (str_int (h / 100) ++ "." ++ two_digits (h mod 100))
            ++ " MB")
    /\ format_2f (megabytes 131072)
       = str_int (h / 100) ++ "." ++ two_digits (h mod 100)
    /\ 0 <= h
    /\ 2 * Z.abs (100 * Z.of_N 131072 - h * 1048576) <= 1048576.
Proof.
  apply (printed_size_is_nearest_hundredth sample_world
           "alexnet/alexnet_weights.pth" "AlexNet"
           (mkFile 131072 (inl (mkExn "EOFError" "Ran out of input"))));
    reflexivity.
Defined.

(** * The script on any standard output *)

Lemma bind_ext {A B} (m m' : Py A) (k k' : A -> Py B) :
  m = m' -> (forall a, k a = k' a) -> bind m k = bind m' k'.
Proof.
  intros -> Hk. destruct m' as [t [a|e]]; [|reflexivity].
  unfold bind. rewrite Hk. reflexivity.
Qed.

Lemma try_except_ext {A} (body body' : Py A) (handler handler' : PyExn -> Py A) :
  body = body' -> (forall e, handler e = handler' e) ->
  try_except body handler = try_except body' handler'.
Proof.
  intros -> Hh. destruct body' as [t [a|e]]; [reflexivity|].
  unfold try_except. rewrite Hh. reflexivity.
Qed.

Lemma for_each_ext {A} (xs : list A) (body body' : A -> Py unit) :
  (forall x, body x = body' x) -> for_each xs body = for_each xs body'.
Proof.
  intros Hb. induction xs as [|x xs IH]; [reflexivity|].
  cbn [for_each]. apply bind_ext; [apply Hb | intros _; exact IH].
Qed.

Lemma print_to_accepted (out : Stdout) (line : string) :
  write out line = None -> print_to out line = print line.
Proof. intros H. unfold print_to. rewrite H. reflexivity. Qed.

(** On a standard output that accepts every text, the function is the
    one modelled with [print]. *)
Lemma verify_model_file_to_accepting (out : Stdout) (w : World)
    (filepath model_name : string) :
  (forall line, write out line = None) ->
  verify_model_file_to out w filepath model_name
  = verify_model_file w filepath model_name.
Proof.
  intros H. unfold verify_model_file_to, verify_model_file.
  repeat first
    [ apply (print_to_accepted _ _ (H _))
    | apply bind_ext; [| intros ?]
    | apply try_except_ext; [| intros ?]
    | apply for_each_ext; intros ?
    | progress cbv zeta
    | match goal with
      | |- (if ?c then _ else _) = (if ?c then _ else _) => destruct c
      | |- match ?x with PyDict _ => _ | _ => _ end = _ => destruct x
      end
    | reflexivity ].
Qed.

(** ** C2: when no exception leaves verify_model_file *)

(** C2, as the code has it: on a standard output that accepts every text
    the script writes, [verify_model_file] returns a boolean for every
    input and raises nothing: [False] when there is no file, when
    [torch.load] raises and when the loaded object is not a dict, [True]
    for a dict.  The prints are not guarded: those of lines 18, 23 and
    24 are outside the [try] and that of line 62 is in the handler. *)
Theorem verify_model_file_degrades_to_false :
  forall (out : Stdout) (w : World) (filepath model_name : string),
    (forall line : string, write out line = None) ->
    (exists valid : bool,
       outcome (verify_model_file_to out w filepath model_name)
       = Returned valid)
    /\ (fs w filepath = None ->
        outcome (verify_model_file_to out w filepath model_name)
        = Returned false)
    /\ (forall (f : File) (e : PyExn),
          fs w filepath = Some f -> content f = inl e ->
          outcome (verify_model_file_to out w filepath model_name)
          = Returned false)
    /\ (forall (f : File) (obj : PyObj),
          fs w filepath = Some f -> content f = inr obj ->
          isinstance_dict obj = false ->
          outcome (verify_model_file_to out w filepath model_name)
          = Returned false)
    /\ (forall (f : File) (items : list (string * PyObj)),
          fs w filepath = Some f -> content f = inr (PyDict items) ->
          outcome (verify_model_file_to out w filepath model_name)
          = Returned true).
Proof.
  intros out w filepath model_name Hout.
  rewrite (verify_model_file_to_accepting _ _ _ _ Hout).
  rewrite verify_model_file_outcome. unfold verdict.
  split; [eexists; reflexivity|].
  split; [intros ->; reflexivity|].
  split; [intros f e -> ->; reflexivity|].
  split; [intros f obj -> -> ->; reflexivity|].
  intros f items -> ->. reflexivity.
Qed.

(** On a UTF-8 standard output: the missing VGG16 file and the
    truncated AlexNet file of the sample world both give [False]. *)
Lemma verify_model_file_degrades_to_false_witness :
  outcome (verify_model_file_to utf8_stdout sample_world
             "vgg16/vgg16_weights.pth" "VGG16") = Returned false
  /\ outcome (verify_model_file_to utf8_stdout sample_world
                "alexnet/alexnet_weights.pth" "AlexNet") = Returned false.
Proof.
  split.
  - apply (verify_model_file_degrades_to_false utf8_stdout sample_world
             "vgg16/vgg16_weights.pth" "VGG16");
      [intros line; reflexivity | reflexivity].
  - apply (proj1 (proj2 (proj2
             (verify_model_file_degrades_to_false utf8_stdout sample_world
                "alexnet/alexnet_weights.pth" "AlexNet"
                (fun line => eq_refl))))
             (mkFile 131072 (inl (mkExn "EOFError" "Ran out of input")))
             (mkExn "EOFError" "Ran out of input"));
      reflexivity.
Defined.

(** C2, as the claim states it, fails on a standard output with the
    strict [ascii] codec: for the missing VGG16 file the print of line
    18, which is outside the [try], raises [UnicodeEncodeError] out of
    the function after the banner, and no boolean is returned. *)
Lemma missing_file_on_ascii_stdout_raises :
  verify_model_file_to (ascii_stdout (fun _ => cross_mark_error))
    sample_world "vgg16/vgg16_weights.pth" "VGG16"
  = ([ Print (newline ++ rule); Print "Verifying: VGG16"; Print rule;
       Call_exists "vgg16/vgg16_weights.pth" ],
     Raised cross_mark_error)
  /\ ~ (exists valid : bool,
          outcome (verify_model_file_to
                     (ascii_stdout (fun _ => cross_mark_error))
                     sample_world "vgg16/vgg16_weights.pth" "VGG16")
          = Returned valid).
Proof.
  split; [reflexivity|]. intros [valid H]. discriminate H.
Qed.

(** * The announcement of main *)

(** ** C1: when the summary announces that all models are ready *)


